(** * GitHubService: the contribution aggregator of Dijkstra-Backend

    A shallow embedding of [app/Services/GitHubService.py].  The service
    asks the GitHub REST API for the repositories of an organisation and,
    per repository, for the commits, issues and pull requests of one user;
    it adds the counts up into one [GitHubContributions] value.

    The remote API is a function from URLs to replies ([World]): within one
    aggregation the same URL is answered the same way.  Coroutines
    gathered by [asyncio.gather] only suspend at these requests, so the
    gathered list is the list of their outcomes in task order.  Python
    exceptions are values of [exn] carried by the [outcome] monad.  A Python
    number, int or float, is kept as its value ([number]); sums are exact,
    the rounding of float addition is left out. *)

From Stdlib Require Import ZArith List String Ascii Bool Lia Permutation.
From Stdlib Require Import QArith Qcanon.
From stdpp Require Import gmap strings.
Import ListNotations.

Local Open Scope string_scope.
Local Open Scope Z_scope.

(** ** Exceptions and the error monad *)

Inductive exn : Type :=
| HTTPException (status_code : Z) (detail : string)
| TransportError
| JSONDecodeError
| TypeError
| KeyError
| AttributeError
| ValidationError.

Inductive outcome (A : Type) : Type :=
| Ok (a : A)
| Raise (e : exn).

Arguments Ok {A} a.
Arguments Raise {A} e.

Definition rbind {A B : Type} (m : outcome A) (k : A -> outcome B) : outcome B :=
  match m with
  | Ok a => k a
  | Raise e => Raise e
  end.

Notation "'let*' x ':=' m 'in' k" := (rbind m (fun x => k))
  (at level 10, x name, m at level 100, k at level 200,
   format "'[v' 'let*'  x  ':='  m  'in' '/' k ']'").

(** A [for] loop whose body may raise: the first exception ends the loop. *)
Fixpoint for_each {A B : Type} (body : A -> outcome B) (xs : list A)
  : outcome (list B) :=
  match xs with
  | [] => Ok []
  | x :: xs' =>
      let* y := body x in
      let* ys := for_each body xs' in
      Ok (y :: ys)
  end.

(** A loop threading an accumulator through a body that may raise. *)
Fixpoint for_acc {A S : Type} (body : S -> A -> outcome S) (s : S) (xs : list A)
  : outcome S :=
  match xs with
  | [] => Ok s
  | x :: xs' => let* s' := body s x in for_acc body s' xs'
  end.

(** [try: body / except Exception: handler] *)
Definition try_except {A : Type} (body : outcome A) (handler : exn -> outcome A)
  : outcome A :=
  match body with
  | Ok a => Ok a
  | Raise e => handler e
  end.

(** ** Numbers

    The value of a Python int or float: a rational, or [NotFinite] for the
    floats inf, -inf and nan. No operation of the service tells the int 2
    from the float 2.0. *)

Inductive number : Type :=
| Finite (q : Qc)
| NotFinite.

Definition int (n : Z) : number := Finite (Q2Qc (inject_Z n)).

Coercion int : Z >-> number.

(** [x + y]; inf and nan stay what they are. *)
Definition nadd (x y : number) : number :=
  match x, y with
  | Finite p, Finite q => Finite (Qcplus p q)
  | _, _ => NotFinite
  end.

(** The int that a number without fractional part is. *)
Definition whole (x : number) : option Z :=
  match x with
  | Finite q =>
      if (Qden (this q) =? 1)%positive then Some (Qnum (this q)) else None
  | NotFinite => None
  end.

(** ** JSON values as Python sees them

    [response.json()] yields [None], [bool], [int], [float], [str], [list]
    or [dict]. A [dict] is kept as its items, and a key that occurs twice
    counts once ([dict_keys]). *)

#[warnings="-register-all"] Inductive JSON : Type :=
| JNull
| JBool (b : bool)
| JInt (n : Z)
| JFloat (x : number)
| JStr (s : string)
| JArr (items : list JSON)
| JObj (fields : list (string * JSON)).

Fixpoint dict_lookup (key : string) (fields : list (string * JSON))
  : option JSON :=
  match fields with
  | [] => None
  | (k, v) :: rest => if String.eqb k key then Some v else dict_lookup key rest
  end.

Fixpoint mem_string (key : string) (keys : list string) : bool :=
  match keys with
  | [] => false
  | k :: rest => String.eqb k key || mem_string key rest
  end.

Fixpoint dedup (keys : list string) : list string :=
  match keys with
  | [] => []
  | k :: rest => if mem_string k rest then dedup rest else k :: dedup rest
  end.

Definition dict_keys (fields : list (string * JSON)) : list string :=
  dedup (map fst fields).

Definition chars (s : string) : list string :=
  map (fun c => String c EmptyString) (list_ascii_of_string s).

(** [needle in haystack] for two [str]: a substring test. *)
Fixpoint is_substring (needle haystack : string) : bool :=
  String.prefix needle haystack
  || match haystack with
     | EmptyString => false
     | String _ rest => is_substring needle rest
     end.

(** [len(v)] *)
Definition py_len (v : JSON) : outcome Z :=
  match v with
  | JArr items => Ok (Z.of_nat (List.length items))
  | JObj fields => Ok (Z.of_nat (List.length (dict_keys fields)))
  | JStr s => Ok (Z.of_nat (String.length s))
  | _ => Raise TypeError
  end.

(** [for x in v]: the elements of a list, the keys of a dict, the
    characters of a str. *)
Definition py_iter (v : JSON) : outcome (list JSON) :=
  match v with
  | JArr items => Ok items
  | JObj fields => Ok (map JStr (dict_keys fields))
  | JStr s => Ok (map JStr (chars s))
  | _ => Raise TypeError
  end.

(** [v[key]] with a str key. *)
Definition py_getitem (v : JSON) (key : string) : outcome JSON :=
  match v with
  | JObj fields =>
      match dict_lookup key fields with
      | Some x => Ok x
      | None => Raise KeyError
      end
  | _ => Raise TypeError
  end.

(** [v.get(key, default)]: only a dict has the method. *)
Definition py_get (v : JSON) (key : string) (default : JSON) : outcome JSON :=
  match v with
  | JObj fields =>
      match dict_lookup key fields with
      | Some x => Ok x
      | None => Ok default
      end
  | _ => Raise AttributeError
  end.

(** [if v:] *)
Definition py_truthy (v : JSON) : bool :=
  match v with
  | JNull => false
  | JBool b => b
  | JInt n => negb (n =? 0)
  | JFloat (Finite q) => negb (Qnum (this q) =? 0)
  | JFloat NotFinite => true
  | JStr s => negb (String.eqb s "")
  | JArr items => match items with [] => false | _ => true end
  | JObj fields => match fields with [] => false | _ => true end
  end.

Definition is_str (key : string) (v : JSON) : bool :=
  match v with
  | JStr s => String.eqb s key
  | _ => false
  end.

(** [key in v] with a str key. *)
Definition py_in (key : string) (v : JSON) : outcome bool :=
  match v with
  | JObj fields => Ok (mem_string key (map fst fields))
  | JArr items => Ok (existsb (is_str key) items)
  | JStr s => Ok (is_substring key s)
  | _ => Raise TypeError
  end.

(** [acc += v] with a number in [acc]; [True] and [False] are the ints 1
    and 0. *)
Definition py_iadd (acc : number) (v : JSON) : outcome number :=
  match v with
  | JInt n => Ok (nadd acc n)
  | JBool b => Ok (nadd acc (if b then 1 else 0))
  | JFloat x => Ok (nadd acc x)
  | _ => Raise TypeError
  end.

(** [isinstance(v, dict)] *)
Definition is_dict (v : JSON) : bool :=
  match v with
  | JObj _ => true
  | _ => false
  end.

(** [str(v)] as an f-string inserts it: a str is inserted as it is; how the
    other values print is left to [fmt]. *)
Definition py_str (fmt : JSON -> string) (v : JSON) : string :=
  match v with
  | JStr s => s
  | _ => fmt v
  end.

(** ** The remote API *)

Record Response : Type := mkResponse {
  status_code : Z;
  text : string;
  (** what [response.json()] parses from the body; [None] when it raises *)
  json : option JSON
}.

Inductive Reply : Type :=
| ConnectFailed
| Answered (r : Response).

Definition World : Type := string -> Reply.

(** [await client.get(url, headers=HEADERS)] *)
Definition client_get (api : World) (url : string) : outcome Response :=
  match api url with
  | ConnectFailed => Raise TransportError
  | Answered r => Ok r
  end.

(** [response.json()] *)
Definition response_json (r : Response) : outcome JSON :=
  match json r with
  | Some v => Ok v
  | None => Raise JSONDecodeError
  end.

(** ** The service *)

Definition GITHUB_API : string := "https://api.github.com".

Record GitHubContributions : Type := mkGitHubContributions {
  username : string;
  organization : string;
  total_commits : Z;
  total_issues : Z;
  total_pull_requests : Z;
  total_lines_added : Z;
  total_lines_deleted : Z
}.

(** The dict that [process_repo] fills in and returns. *)
Record RepoResult : Type := mkRepoResult {
  commits : Z;
  issues : Z;
  pulls : Z;
  additions : number;
  deletions : number
}.

(** [params.get(key, True)] *)
Definition params_get (params : gmap string bool) (key : string) : bool :=
  default true (params !! key).

Definition fetch_json (api : World) (url : string) : outcome JSON :=
  let* response := client_get api url in
  if negb (status_code response =? 200)
  then Raise (HTTPException (status_code response)
                            ("GitHub API error: " ++ text response))
  else response_json response.

Definition org_repos_url (org : string) : string :=
  GITHUB_API ++ "/orgs/" ++ org ++ "/repos?per_page=100".

Definition get_org_repos (api : World) (org : string) : outcome JSON :=
  fetch_json api (org_repos_url org).

Definition fetch_json_with_client (api : World) (url : string) : outcome JSON :=
  let* response := client_get api url in
  if negb (status_code response =? 200)
  then Raise (HTTPException (status_code response)
                            ("GitHub API error: " ++ text response))
  else response_json response.

(** The [try] body of [get_commit_stats]. *)
Definition get_commit_stats_try (api : World) (url : string) : outcome JSON :=
  let* response := client_get api url in
  let* body := response_json response in
  py_get body "stats" (JObj []).

(** [except Exception] logs a warning and returns [{}]. *)
Definition get_commit_stats (api : World) (url : string) : outcome JSON :=
  try_except (get_commit_stats_try api url) (fun _ => Ok (JObj [])).

Definition commits_url (full_name user : string) : string :=
  GITHUB_API ++ "/repos/" ++ full_name ++ "/commits?author=" ++ user
  ++ "&per_page=100".

Definition commit_detail_url (full_name sha : string) : string :=
  GITHUB_API ++ "/repos/" ++ full_name ++ "/commits/" ++ sha.

Definition issues_url (full_name user : string) : string :=
  GITHUB_API ++ "/repos/" ++ full_name ++ "/issues?creator=" ++ user
  ++ "&state=all&per_page=100".

Definition pulls_url (full_name user : string) : string :=
  GITHUB_API ++ "/repos/" ++ full_name ++ "/pulls?state=all&creator=" ++ user
  ++ "&per_page=100".

(** One turn of the loop that appends to [commit_tasks]: the detail URL of
    a commit whose [sha] is truthy, nothing otherwise. *)
Definition commit_task (fmt : JSON -> string) (full_name : string)
    (commit : JSON) : outcome (list string) :=
  let* sha := py_get commit "sha" JNull in
  if py_truthy sha
  then Ok [commit_detail_url full_name (py_str fmt sha)]
  else Ok [].

(** One turn of the loop over [commit_stats], the gathered outcomes of the
    stats tasks: an exception is no dict and is skipped like any other value
    that is none. *)
Definition add_stats (result : RepoResult) (stats : outcome JSON)
  : outcome RepoResult :=
  match stats with
  | Ok stats =>
      if is_dict stats then
        let* a := py_get stats "additions" (JInt 0) in
        let* additions' := py_iadd (additions result) a in
        let* d := py_get stats "deletions" (JInt 0) in
        let* deletions' := py_iadd (deletions result) d in
        Ok (mkRepoResult (commits result) (issues result) (pulls result)
                         additions' deletions')
      else Ok result
  | Raise _ => Ok result
  end.

(** One item of the generator summed for the issues count. *)
Definition issue_counts (issue : JSON) : outcome Z :=
  let* marked := py_in "pull_request" issue in
  Ok (if negb marked then 1 else 0).

Definition sum_Z (xs : list Z) : Z := fold_left Z.add xs 0.

(** The body of [if params.get("commits", True)]. *)
Definition process_commits (fmt : JSON -> string) (api : World)
    (full_name user : string) (result : RepoResult) : outcome RepoResult :=
  let* commits := fetch_json_with_client api (commits_url full_name user) in
  let* n := py_len commits in
  let result := mkRepoResult n (issues result) (pulls result)
                             (additions result) (deletions result) in
  let* items := py_iter commits in
  let* commit_tasks := for_each (commit_task fmt full_name) items in
  let commit_stats := map (get_commit_stats api) (concat commit_tasks) in
  for_acc add_stats result commit_stats.

(** The body of [if params.get("issues", True)]. *)
Definition process_issues (api : World) (full_name user : string)
    (result : RepoResult) : outcome RepoResult :=
  let* issues := fetch_json_with_client api (issues_url full_name user) in
  let* items := py_iter issues in
  let* ones := for_each issue_counts items in
  Ok (mkRepoResult (commits result) (sum_Z ones) (pulls result)
                   (additions result) (deletions result)).

(** The body of [if params.get("pulls", True)]. *)
Definition process_pulls (api : World) (full_name user : string)
    (result : RepoResult) : outcome RepoResult :=
  let* pulls := fetch_json_with_client api (pulls_url full_name user) in
  let* n := py_len pulls in
  Ok (mkRepoResult (commits result) (issues result) n
                   (additions result) (deletions result)).

Definition process_repo (fmt : JSON -> string) (api : World)
    (full_name user : string) (params : gmap string bool)
  : outcome RepoResult :=
  let result := mkRepoResult 0 0 0 0 0 in
  let* result :=
    if params_get params "commits"
    then process_commits fmt api full_name user result
    else Ok result in
  let* result :=
    if params_get params "issues"
    then process_issues api full_name user result
    else Ok result in
  let* result :=
    if params_get params "pulls"
    then process_pulls api full_name user result
    else Ok result in
  Ok result.

(** The five running totals of [count_user_contributions]. *)
Record Totals : Type := mkTotals {
  t_commits : Z;
  t_issues : Z;
  t_pulls : Z;
  t_added : number;
  t_deleted : number
}.

(** One turn of the loop over the gathered [results]: an exception is
    skipped. *)
Definition add_result (t : Totals) (r : outcome RepoResult) : Totals :=
  match r with
  | Ok r =>
      mkTotals (t_commits t + commits r) (t_issues t + issues r)
               (t_pulls t + pulls r) (nadd (t_added t) (additions r))
               (nadd (t_deleted t) (deletions r))
  | Raise _ => t
  end.

Definition fold_results (results : list (outcome RepoResult)) : Totals :=
  fold_left add_result results (mkTotals 0 0 0 0 0).

(** One turn of the loop that appends to [repo_tasks]: the full name handed
    to [process_repo]. *)
Definition repo_task (fmt : JSON -> string) (org : string) (repo : JSON)
  : outcome string :=
  let* repo_name := py_getitem repo "name" in
  Ok (org ++ "/" ++ py_str fmt repo_name).

(** [results], as [asyncio.gather] with [return_exceptions=True] hands them
    back: one outcome per task, in task order. *)
Definition gather_repos (fmt : JSON -> string) (api : World)
    (user org : string) (params : gmap string bool)
  : outcome (list (outcome RepoResult)) :=
  let* repos := get_org_repos api org in
  let* items := py_iter repos in
  let* repo_tasks := for_each (repo_task fmt org) items in
  Ok (map (fun full_name => process_repo fmt api full_name user params)
          repo_tasks).

(** What pydantic makes of a number given for an [int] field: an int, or a
    float without fractional part, is taken as that int; any other float is
    refused. *)
Definition validate_int (x : number) : outcome Z :=
  match whole x with
  | Some n => Ok n
  | None => Raise ValidationError
  end.

(** [GitHubContributions(username=..., ..., total_lines_deleted=...)]: the
    three counts are ints; the two line totals are validated. *)
Definition make_report (user org : string) (t : Totals)
  : outcome GitHubContributions :=
  let* lines_added := validate_int (t_added t) in
  let* lines_deleted := validate_int (t_deleted t) in
  Ok (mkGitHubContributions user org (t_commits t) (t_issues t) (t_pulls t)
                            lines_added lines_deleted).

Definition count_user_contributions (fmt : JSON -> string) (api : World)
    (user org : string) (params : gmap string bool)
  : outcome GitHubContributions :=
  let* results := gather_repos fmt api user org params in
  make_report user org (fold_results results).

Definition getAllGitHubData (fmt : JSON -> string) (api : World)
    (user : string) : outcome GitHubContributions :=
  let default_params : gmap string bool :=
    <["commits" := true]> (<["issues" := true]> (<["pulls" := true]> ∅)) in
  count_user_contributions fmt api user "Dijkstra-Edu" default_params.

Definition getGitHubDataWithSearchParams (fmt : JSON -> string) (api : World)
    (user : string) (searchParams : gmap string bool)
  : outcome GitHubContributions :=
  count_user_contributions fmt api user "Dijkstra-Edu" searchParams.

(** ** Notions the properties are stated with *)

(** The value under [stats] of a reply whose body is a dict that has one. *)
Definition stats_field (reply : Reply) : option JSON :=
  match reply with
  | Answered r =>
      match json r with
      | Some (JObj fields) => dict_lookup "stats" fields
      | _ => None
      end
  | ConnectFailed => None
  end.

(** The partial results of the repositories that did not fail. *)
Fixpoint successes (results : list (outcome RepoResult)) : list RepoResult :=
  match results with
  | [] => []
  | Ok r :: rest => r :: successes rest
  | Raise _ :: rest => successes rest
  end.

(** The sum of one field over a list of partial results. *)
Definition sum_of (field : RepoResult -> Z) (rs : list RepoResult) : Z :=
  fold_right (fun r acc => field r + acc) 0 rs.

(** The same for a field that holds lines. *)
Definition sum_lines (field : RepoResult -> number) (rs : list RepoResult)
  : number :=
  fold_right (fun r acc => nadd (field r) acc) 0 rs.

(** An item of the issues endpoint that is a pull request: a dict with a
    [pull_request] key. *)
Definition carries_marker (item : JSON) : bool :=
  match item with
  | JObj fields =>
      if in_dec string_dec "pull_request" (map fst fields) then true else false
  | _ => false
  end.

Definition unmarked (items : list JSON) : list JSON :=
  List.filter (fun item => negb (carries_marker item)) items.

(** [api] with the reply at [url] replaced. *)
Definition world_with (api : World) (url : string) (reply : Reply) : World :=
  fun u => if String.eqb u url then reply else api u.

(** ** Worlds for examples *)

Definition ok_reply (body : JSON) : Reply :=
  Answered (mkResponse 200 "" (Some body)).

Definition not_found : Reply :=
  Answered (mkResponse 404 "Not Found"
                       (Some (JObj [("message", JStr "Not Found")]))).

Fixpoint table_world (table : list (string * Reply)) : World :=
  fun url =>
    match table with
    | [] => not_found
    | (u, reply) :: rest =>
        if String.eqb u url then reply else table_world rest url
    end.

Definition no_fmt : JSON -> string := fun _ => "".

Definition all_params : gmap string bool :=
  <["commits" := true]> (<["issues" := true]> (<["pulls" := true]> ∅)).

Definition without_pulls : gmap string bool := <["pulls" := false]> ∅.

Definition commit (sha : string) : JSON := JObj [("sha", JStr sha)].

Definition stats_body (a d : Z) : JSON :=
  JObj [("sha", JStr "x");
        ("stats", JObj [("additions", JInt a); ("deletions", JInt d)])].

Definition repo (name : string) : JSON := JObj [("name", JStr name)].

(** The organisation of the scenario: [r1] has three commits (+10/-2 in
    all), one issue that is no pull request, two pulls; the commit list of
    [r2] answers 404. *)
Definition alice_world : World :=
  table_world
    [ (org_repos_url "acme", ok_reply (JArr [repo "r1"; repo "r2"]));
      (commits_url "acme/r1" "alice",
       ok_reply (JArr [commit "c1"; commit "c2"; commit "c3"]));
      (commit_detail_url "acme/r1" "c1", ok_reply (stats_body 4 1));
      (commit_detail_url "acme/r1" "c2", ok_reply (stats_body 6 0));
      (commit_detail_url "acme/r1" "c3", ok_reply (stats_body 0 1));
      (issues_url "acme/r1" "alice",
       ok_reply (JArr [JObj [("number", JInt 1)];
                       JObj [("number", JInt 2); ("pull_request", JObj [])];
                       JObj [("number", JInt 3); ("pull_request", JObj [])]]));
      (pulls_url "acme/r1" "alice",
       ok_reply (JArr [JObj [("number", JInt 2)]; JObj [("number", JInt 3)]]));
      (issues_url "acme/r2" "alice", ok_reply (JArr []));
      (pulls_url "acme/r2" "alice", ok_reply (JArr [])) ].




Definition only_commits : gmap string bool :=
  <["issues" := false]> (<["pulls" := false]> ∅).

Definition without_commits : gmap string bool := <["commits" := false]> ∅.

(** The issues endpoint answers two items, one of them a pull request. *)
Definition two_issues_world : World :=
  table_world
    [ (issues_url "acme/r1" "alice",
       ok_reply (JArr [JObj [("number", JInt 7)];
                       JObj [("number", JInt 8);
                             ("pull_request", JObj [("url", JStr "u")])]])) ].

Definition only_issues : gmap string bool :=
  <["commits" := false]> (<["pulls" := false]> ∅).



(** ** Notions for the properties of the single steps *)

(** A listed repository that [repo['name']] can read. *)
Definition has_name (item : JSON) : bool :=
  match item with
  | JObj fields =>
      match dict_lookup "name" fields with
      | Some _ => true
      | None => false
      end
  | _ => false
  end.











(** The parsed body of a reply, if there is one. *)
Definition reply_json (reply : Reply) : option JSON :=
  match reply with
  | Answered r => json r
  | ConnectFailed => None
  end.

Definition noisy_params : gmap string bool :=
  <["stars" := false]> (<["issues" := true]> ∅).

Definition no_params : gmap string bool := ∅.

(** A world of malformed answers: the second listed repository has no
    name, and the stats of commit [c1] hold null for the additions. *)
Definition bad_issue_world : World :=
  table_world
    [ (org_repos_url "acme", ok_reply (JArr [repo "r1"; JObj []]));
      (commits_url "acme/r1" "alice", ok_reply (JArr [commit "c1"; JObj []]));
      (commit_detail_url "acme/r1" "c1",
       ok_reply (JObj [("stats", JObj [("additions", JNull)])]));
      (issues_url "acme/r1" "alice", ok_reply (JArr [JInt 3])) ].

(** * Properties *)

(** ** Numbers *)

Lemma whole_int (n : Z) : whole (int n) = Some n.
Proof.
  unfold whole, int. simpl.
  rewrite Qred_identity; simpl; [reflexivity | apply Z.gcd_1_r].
Qed.

Lemma whole_inv (x : number) (n : Z) : whole x = Some n -> x = int n.
Proof.
  destruct x as [q |]; unfold whole; [| discriminate].
  destruct (Qden (this q) =? 1)%positive eqn:E; [| discriminate].
  apply Pos.eqb_eq in E. intros [= <-]. unfold int. f_equal.
  apply Qc_is_canon. simpl. rewrite Qred_correct.
  destruct q as [[n d] c]. simpl in *. subst. reflexivity.
Qed.

Lemma int_inj (n m : Z) : int n = int m -> n = m.
Proof.
  intros H. apply (f_equal whole) in H. rewrite !whole_int in H.
  injection H as ->. reflexivity.
Qed.


Lemma nadd_0_r (x : number) : nadd x (int 0) = x.
Proof.
  destruct x; simpl; [| reflexivity]. f_equal.
  change (Q2Qc (inject_Z 0)) with 0%Qc. apply Qcplus_0_r.
Qed.

Lemma nadd_0_l (x : number) : nadd (int 0) x = x.
Proof.
  destruct x; simpl; [| reflexivity]. f_equal.
  change (Q2Qc (inject_Z 0)) with 0%Qc. apply Qcplus_0_l.
Qed.

Lemma nadd_assoc (x y z : number) : nadd x (nadd y z) = nadd (nadd x y) z.
Proof.
  destruct x, y, z; simpl; try reflexivity. f_equal. apply Qcplus_assoc.
Qed.


Lemma validate_int_Ok (x : number) (n : Z) :
  validate_int x = Ok n <-> x = int n.
Proof.
  unfold validate_int. split.
  - destruct (whole x) as [m |] eqn:E; [| discriminate].
    intros [= <-]. apply whole_inv, E.
  - intros ->. rewrite whole_int. reflexivity.
Qed.

Lemma make_report_Ok (user org : string) (t : Totals)
    (rep : GitHubContributions) :
  make_report user org t = Ok rep <->
  username rep = user /\ organization rep = org /\
  total_commits rep = t_commits t /\ total_issues rep = t_issues t /\
  total_pull_requests rep = t_pulls t /\
  t_added t = int (total_lines_added rep) /\
  t_deleted t = int (total_lines_deleted rep).
Proof.
  unfold make_report. split.
  - destruct (validate_int (t_added t)) as [la |] eqn:Ea; [| discriminate].
    destruct (validate_int (t_deleted t)) as [ld |] eqn:Ed; [| discriminate].
    intros [= <-]. simpl. apply validate_int_Ok in Ea, Ed. auto 10.
  - intros (<- & <- & Hc & Hi & Hp & Ha & Hd).
    apply validate_int_Ok in Ha, Hd. rewrite Ha, Hd. simpl.
    rewrite <- Hc, <- Hi, <- Hp. destruct rep; reflexivity.
Qed.

(** ** The fetch operation *)

Lemma fetch_json_with_client_eq (api : World) (url : string) :
  fetch_json_with_client api url = fetch_json api url.
Proof. reflexivity. Qed.

Lemma fetch_json_answered (api : World) (url : string) (r : Response) :
  api url = Answered r ->
  fetch_json api url =
    if status_code r =? 200 then response_json r
    else Raise (HTTPException (status_code r)
                              ("GitHub API error: " ++ text r)).
Proof.
  intros Hr. unfold fetch_json, client_get. rewrite Hr. simpl.
  destruct (status_code r =? 200); reflexivity.
Qed.

(** C2, amended: both fetch operations raise the HTTPException that carries
    the status code and the response body exactly when a response arrives
    whose status is not 200 (a 2xx status other than 200 raises as well);
    a 200 response whose body parses is answered with the parsed body. *)
Theorem fetch_json_raises_iff_not_200 :
  forall (api : World) (url : string),
    fetch_json_with_client api url = fetch_json api url /\
    (forall s d,
        fetch_json api url = Raise (HTTPException s d) <->
        exists r, api url = Answered r /\ status_code r <> 200 /\
                  s = status_code r /\ d = "GitHub API error: " ++ text r) /\
    (forall r v,
        api url = Answered r -> status_code r = 200 -> json r = Some v ->
        fetch_json api url = Ok v).
Proof.
  intros api url. split; [reflexivity | split].
  - intros s d. split.
    + destruct (api url) as [| r] eqn:Hr.
      * unfold fetch_json, client_get. rewrite Hr. discriminate.
      * rewrite (fetch_json_answered _ _ _ Hr).
        destruct (Z.eqb_spec (status_code r) 200) as [E | NE].
        -- unfold response_json. destruct (json r); discriminate.
        -- intros H. injection H as <- <-. exists r. auto.
    + intros (r & Hr & NE & -> & ->).
      rewrite (fetch_json_answered _ _ _ Hr).
      destruct (Z.eqb_spec (status_code r) 200); [contradiction | reflexivity].
  - intros r v Hr E Hv. rewrite (fetch_json_answered _ _ _ Hr), E. simpl.
    unfold response_json. rewrite Hv. reflexivity.
Qed.

Lemma fetch_json_raises_iff_not_200_witness :
  fetch_json alice_world (org_repos_url "acme")
  = Ok (JArr [repo "r1"; repo "r2"]).
Proof.
  apply (proj2 (proj2 (fetch_json_raises_iff_not_200
                         alice_world (org_repos_url "acme")))
           (mkResponse 200 "" (Some (JArr [repo "r1"; repo "r2"]))));
    reflexivity.
Defined.

(** A 201 response is in the 2xx range and still raises. *)
Lemma fetch_json_201_raises :
  let created := mkResponse 201 "created" (Some (JObj [])) in
  let api : World := fun _ => Answered created in
  200 <= status_code created < 300 /\
  fetch_json api "https://api.github.com/orgs/acme/repos?per_page=100"
  = Raise (HTTPException 201 "GitHub API error: created") /\
  fetch_json_with_client api
    "https://api.github.com/orgs/acme/repos?per_page=100"
  = Raise (HTTPException 201 "GitHub API error: created").
Proof. simpl. repeat split; lia. Qed.

(** C7: when the repository list of the organisation is answered with a
    status other than 200, [count_user_contributions] raises that
    HTTPException and builds no report. *)
Theorem repo_list_failure_is_fatal :
  forall fmt (api : World) (user org : string) (params : gmap string bool)
         (r : Response),
    api (org_repos_url org) = Answered r ->
    status_code r <> 200 ->
    get_org_repos api org
    = Raise (HTTPException (status_code r) ("GitHub API error: " ++ text r)) /\
    count_user_contributions fmt api user org params
    = Raise (HTTPException (status_code r) ("GitHub API error: " ++ text r)).
Proof.
  intros fmt api user org params r Hr NE.
  assert (H : get_org_repos api org
              = Raise (HTTPException (status_code r)
                                     ("GitHub API error: " ++ text r))).
  { unfold get_org_repos. rewrite (fetch_json_answered _ _ _ Hr).
    destruct (Z.eqb_spec (status_code r) 200); [contradiction | reflexivity]. }
  split; [exact H |].
  unfold count_user_contributions, gather_repos. rewrite H. reflexivity.
Qed.

Lemma repo_list_failure_is_fatal_witness :
  count_user_contributions no_fmt (table_world []) "alice" "acme" all_params
  = Raise (HTTPException 404 "GitHub API error: Not Found").
Proof.
  apply (proj2 (repo_list_failure_is_fatal
                  no_fmt (table_world []) "alice" "acme" all_params
                  (mkResponse 404 "Not Found"
                     (Some (JObj [("message", JStr "Not Found")])))
                  eq_refl ltac:(simpl; lia))).
Defined.

(** ** The per-commit stats fetch *)

Lemma get_commit_stats_value (api : World) (url : string) :
  get_commit_stats api url
  = Ok (match stats_field (api url) with Some v => v | None => JObj [] end).
Proof.
  unfold get_commit_stats, get_commit_stats_try, client_get, stats_field.
  destruct (api url) as [| r]; [reflexivity |]. simpl.
  unfold response_json. destruct (json r) as [body |]; [| reflexivity].
  destruct body; simpl; try reflexivity.
  destruct (dict_lookup "stats" fields); reflexivity.
Qed.

Lemma add_stats_empty (res : RepoResult) : add_stats res (Ok (JObj [])) = Ok res.
Proof.
  destruct res. simpl. rewrite !nadd_0_r. reflexivity.
Qed.

(** C10, amended: [get_commit_stats] raises for no reply, whatever its
    status. Without a [stats] field to read (no response, a body that does
    not parse, a body that is no dict or has no such key) it returns the
    empty dict, which adds nothing; otherwise it returns the value of that
    field as it is, a dict only if the field holds one. *)
Theorem get_commit_stats_total :
  forall (api : World) (url : string),
    exists v : JSON,
      get_commit_stats api url = Ok v /\
      (stats_field (api url) = None ->
       v = JObj [] /\ forall res, add_stats res (get_commit_stats api url) = Ok res) /\
      (forall x, stats_field (api url) = Some x -> v = x).
Proof.
  intros api url. rewrite get_commit_stats_value.
  destruct (stats_field (api url)) as [x |].
  - exists x. repeat split; try discriminate. intros y [= ->]. reflexivity.
  - exists (JObj []). repeat split; try discriminate.
    intros res. apply add_stats_empty.
Qed.

Lemma get_commit_stats_total_witness :
  exists v : JSON,
    get_commit_stats (table_world []) "https://api.github.com/x" = Ok v /\
    v = JObj [].
Proof.
  destruct (get_commit_stats_total (table_world []) "https://api.github.com/x")
    as (v & Hv & Hnone & _).
  exists v. split; [exact Hv | exact (proj1 (Hnone eq_refl))].
Defined.

(** A body whose [stats] is null: the value returned is no dict. *)
Lemma get_commit_stats_not_dict :
  let api : World := fun _ => ok_reply (JObj [("stats", JNull)]) in
  get_commit_stats api "https://api.github.com/repos/acme/r1/commits/c1"
  = Ok JNull /\
  is_dict JNull = false.
Proof. split; reflexivity. Qed.

(** ** Feature selection *)

Lemma params_get_insert_absent (params : gmap string bool) (key k : string) :
  params !! key = None ->
  params_get (<[key := true]> params) k = params_get params k.
Proof.
  intros Habs. unfold params_get.
  destruct (decide (key = k)) as [-> | Hne].
  - rewrite lookup_insert_eq, Habs. reflexivity.
  - rewrite lookup_insert_ne by exact Hne. reflexivity.
Qed.

Lemma process_repo_params_ext fmt (api : World) (full_name user : string)
    (p q : gmap string bool) :
  (forall k, params_get p k = params_get q k) ->
  process_repo fmt api full_name user p = process_repo fmt api full_name user q.
Proof.
  intros H. unfold process_repo. rewrite !H. reflexivity.
Qed.

(** ** The fold over the gathered results *)

Lemma fold_left_add_result (results : list (outcome RepoResult)) (t : Totals) :
  fold_left add_result results t
  = mkTotals (t_commits t + sum_of commits (successes results))
             (t_issues t + sum_of issues (successes results))
             (t_pulls t + sum_of pulls (successes results))
             (nadd (t_added t) (sum_lines additions (successes results)))
             (nadd (t_deleted t) (sum_lines deletions (successes results))).
Proof.
  revert t. induction results as [| [r | e] rest IH]; intros t; simpl.
  - destruct t; simpl. rewrite !Z.add_0_r, !nadd_0_r. reflexivity.
  - rewrite IH. simpl. rewrite <- !nadd_assoc. f_equal; lia.
  - apply IH.
Qed.

Lemma fold_results_sums (results : list (outcome RepoResult)) :
  fold_results results
  = mkTotals (sum_of commits (successes results))
             (sum_of issues (successes results))
             (sum_of pulls (successes results))
             (sum_lines additions (successes results))
             (sum_lines deletions (successes results)).
Proof.
  unfold fold_results. rewrite fold_left_add_result.
  cbn [t_commits t_issues t_pulls t_added t_deleted].
  rewrite !nadd_0_l, !Z.add_0_l. reflexivity.
Qed.







Lemma sum_of_all_zero (field : RepoResult -> Z) (rs : list RepoResult) :
  Forall (fun r => field r = 0) rs -> sum_of field rs = 0.
Proof.
  induction 1 as [| r rs Hr _ IH]; simpl; [reflexivity | lia].
Qed.

Lemma sum_lines_all_zero (field : RepoResult -> number) (rs : list RepoResult) :
  Forall (fun r => field r = int 0) rs -> sum_lines field rs = int 0.
Proof.
  induction 1 as [| r rs Hr _ IH]; simpl; [reflexivity |].
  rewrite Hr, IH. apply nadd_0_r.
Qed.

Lemma In_successes (results : list (outcome RepoResult)) (r : RepoResult) :
  In r (successes results) <-> In (Ok r) results.
Proof.
  induction results as [| [r' | e] rest IH]; simpl.
  - tauto.
  - rewrite IH. split; intros [H | H]; auto; left; congruence.
  - rewrite IH. split; [auto | intros [H | H]; [discriminate | exact H]].
Qed.

(** ** The organisation aggregator *)


Lemma count_user_contributions_Ok fmt (api : World) (user org : string)
    (params : gmap string bool) (rep : GitHubContributions) :
  count_user_contributions fmt api user org params = Ok rep ->
  exists names,
    gather_repos fmt api user org params
    = Ok (map (fun fn => process_repo fmt api fn user params) names) /\
    make_report user org
      (fold_results
         (map (fun fn => process_repo fmt api fn user params) names))
    = Ok rep.
Proof.
  unfold count_user_contributions, gather_repos.
  destruct (get_org_repos api org) as [repos |]; [simpl | discriminate].
  destruct (py_iter repos) as [items |]; [simpl | discriminate].
  destruct (for_each (repo_task fmt org) items) as [names |];
    [simpl | discriminate].
  intros H. exists names. split; [reflexivity | exact H].
Qed.







(** ** The per-repository aggregator: which branch writes which field *)

Ltac bind_ok H :=
  match type of H with
  | rbind ?m _ = Ok _ =>
      let E := fresh "E" in
      destruct m eqn:E; [cbn [rbind] in H | discriminate H]
  end.

Lemma add_stats_keeps_counts (res res' : RepoResult) (stats : outcome JSON) :
  add_stats res stats = Ok res' ->
  commits res' = commits res /\ issues res' = issues res /\
  pulls res' = pulls res.
Proof.
  unfold add_stats. destruct stats as [v | e]; [| intros [= <-]; auto].
  destruct (is_dict v); [| intros [= <-]; auto].
  intros H. repeat bind_ok H. injection H as <-. auto.
Qed.

Lemma for_acc_add_stats_keeps_counts (stats : list (outcome JSON))
    (res res' : RepoResult) :
  for_acc add_stats res stats = Ok res' ->
  commits res' = commits res /\ issues res' = issues res /\
  pulls res' = pulls res.
Proof.
  revert res. induction stats as [| s stats IH]; intros res H; simpl in H.
  - injection H as <-. auto.
  - bind_ok H. apply add_stats_keeps_counts in E as (<- & <- & <-).
    apply IH, H.
Qed.

Lemma process_commits_fields fmt (api : World) (full_name user : string)
    (res res' : RepoResult) :
  process_commits fmt api full_name user res = Ok res' ->
  issues res' = issues res /\ pulls res' = pulls res /\
  exists v, fetch_json_with_client api (commits_url full_name user) = Ok v /\
            py_len v = Ok (commits res').
Proof.
  unfold process_commits. intros H. repeat bind_ok H.
  apply for_acc_add_stats_keeps_counts in H as (Hc & Hi & Hp). simpl in *.
  repeat split; try assumption. eexists. split; [reflexivity |]. congruence.
Qed.

Lemma process_issues_fields (api : World) (full_name user : string)
    (res res' : RepoResult) :
  process_issues api full_name user res = Ok res' ->
  commits res' = commits res /\ pulls res' = pulls res /\
  additions res' = additions res /\ deletions res' = deletions res.
Proof.
  unfold process_issues. intros H. repeat bind_ok H. injection H as <-. auto.
Qed.

Lemma process_pulls_fields (api : World) (full_name user : string)
    (res res' : RepoResult) :
  process_pulls api full_name user res = Ok res' ->
  commits res' = commits res /\ issues res' = issues res /\
  additions res' = additions res /\ deletions res' = deletions res.
Proof.
  unfold process_pulls. intros H. repeat bind_ok H. injection H as <-. auto.
Qed.

(** What the three steps of a successful [process_repo] were. *)
Lemma process_repo_Ok fmt (api : World) (full_name user : string)
    (params : gmap string bool) (r : RepoResult) :
  process_repo fmt api full_name user params = Ok r ->
  exists r1 r2,
    (if params_get params "commits"
     then process_commits fmt api full_name user (mkRepoResult 0 0 0 0 0)
     else Ok (mkRepoResult 0 0 0 0 0)) = Ok r1 /\
    (if params_get params "issues"
     then process_issues api full_name user r1 else Ok r1) = Ok r2 /\
    (if params_get params "pulls"
     then process_pulls api full_name user r2 else Ok r2) = Ok r.
Proof.
  unfold process_repo. intros H. repeat bind_ok H. injection H as <-.
  eauto.
Qed.

Lemma process_repo_commits_off fmt (api : World) (full_name user : string)
    (params : gmap string bool) (r : RepoResult) :
  params_get params "commits" = false ->
  process_repo fmt api full_name user params = Ok r ->
  commits r = 0 /\ additions r = 0 /\ deletions r = 0.
Proof.
  intros Hoff H. apply process_repo_Ok in H as (r1 & r2 & H1 & H2 & H3).
  rewrite Hoff in H1. injection H1 as <-.
  assert (commits r2 = 0 /\ additions r2 = 0 /\ deletions r2 = 0) as (C & A & D).
  { destruct (params_get params "issues").
    - apply process_issues_fields in H2 as (-> & _ & -> & ->). auto.
    - injection H2 as <-. auto. }
  destruct (params_get params "pulls").
  - apply process_pulls_fields in H3 as (-> & _ & -> & ->). auto.
  - injection H3 as <-. auto.
Qed.

Lemma process_repo_issues_off fmt (api : World) (full_name user : string)
    (params : gmap string bool) (r : RepoResult) :
  params_get params "issues" = false ->
  process_repo fmt api full_name user params = Ok r ->
  issues r = 0.
Proof.
  intros Hoff H. apply process_repo_Ok in H as (r1 & r2 & H1 & H2 & H3).
  rewrite Hoff in H2. injection H2 as <-.
  assert (issues r1 = 0) as I.
  { destruct (params_get params "commits").
    - apply process_commits_fields in H1 as (-> & _). reflexivity.
    - injection H1 as <-. reflexivity. }
  destruct (params_get params "pulls").
  - apply process_pulls_fields in H3 as (_ & -> & _). exact I.
  - injection H3 as <-. exact I.
Qed.

Lemma process_repo_pulls_off fmt (api : World) (full_name user : string)
    (params : gmap string bool) (r : RepoResult) :
  params_get params "pulls" = false ->
  process_repo fmt api full_name user params = Ok r ->
  pulls r = 0.
Proof.
  intros Hoff H. apply process_repo_Ok in H as (r1 & r2 & H1 & H2 & H3).
  rewrite Hoff in H3. injection H3 as <-.
  assert (pulls r1 = 0) as P.
  { destruct (params_get params "commits").
    - apply process_commits_fields in H1 as (_ & -> & _). reflexivity.
    - injection H1 as <-. reflexivity. }
  destruct (params_get params "issues").
  - apply process_issues_fields in H2 as (_ & -> & _). exact P.
  - injection H2 as <-. exact P.
Qed.

Lemma params_get_false (params : gmap string bool) (key : string) :
  params !! key = Some false -> params_get params key = false.
Proof. intros H. unfold params_get. rewrite H. reflexivity. Qed.

(** A field that is 0 in every partial result of [process_repo] is 0 in the
    total. *)
Lemma sum_of_process_repo_zero fmt (api : World) (user : string)
    (params : gmap string bool) (field : RepoResult -> Z)
    (names : list string) :
  (forall fn r, process_repo fmt api fn user params = Ok r -> field r = 0) ->
  sum_of field
    (successes (map (fun fn => process_repo fmt api fn user params) names)) = 0.
Proof.
  intros Hzero. apply sum_of_all_zero. apply List.Forall_forall.
  intros r Hin. apply In_successes, List.in_map_iff in Hin as (fn & Hfn & _).
  exact (Hzero fn r Hfn).
Qed.

Lemma sum_lines_process_repo_zero fmt (api : World) (user : string)
    (params : gmap string bool) (field : RepoResult -> number)
    (names : list string) :
  (forall fn r, process_repo fmt api fn user params = Ok r -> field r = int 0) ->
  sum_lines field
    (successes (map (fun fn => process_repo fmt api fn user params) names))
  = int 0.
Proof.
  intros Hzero. apply sum_lines_all_zero. apply List.Forall_forall.
  intros r Hin. apply In_successes, List.in_map_iff in Hin as (fn & Hfn & _).
  exact (Hzero fn r Hfn).
Qed.

(** C4: a category whose flag is set to false has total 0 in the report. *)
Theorem disabled_category_total_is_zero :
  forall fmt (api : World) (user org : string) (params : gmap string bool)
         (rep : GitHubContributions),
    count_user_contributions fmt api user org params = Ok rep ->
    (params !! "commits" = Some false -> total_commits rep = 0) /\
    (params !! "issues" = Some false -> total_issues rep = 0) /\
    (params !! "pulls" = Some false -> total_pull_requests rep = 0).
Proof.
  intros fmt api user org params rep Hrep.
  destruct (count_user_contributions_Ok _ _ _ _ _ _ Hrep) as (names & _ & Hmk).
  apply make_report_Ok in Hmk as (_ & _ & Hc & Hi & Hp & _).
  rewrite fold_results_sums in Hc, Hi, Hp. simpl in Hc, Hi, Hp.
  rewrite Hc, Hi, Hp.
  repeat split; intros Hoff; apply params_get_false in Hoff;
    apply sum_of_process_repo_zero; intros fn r Hr.
  - eapply process_repo_commits_off; eassumption.
  - eapply process_repo_issues_off; eassumption.
  - eapply process_repo_pulls_off; eassumption.
Qed.

Lemma disabled_category_total_is_zero_witness :
  total_issues (mkGitHubContributions "alice" "acme" 3 0 0 10 2) = 0 /\
  total_pull_requests (mkGitHubContributions "alice" "acme" 3 0 0 10 2) = 0.
Proof.
  pose proof (disabled_category_total_is_zero
                no_fmt alice_world "alice" "acme" only_commits
                (mkGitHubContributions "alice" "acme" 3 0 0 10 2)
                ltac:(vm_compute; reflexivity)) as (_ & Hi & Hp).
  split; [apply Hi | apply Hp]; vm_compute; reflexivity.
Defined.

(** C8: with the commits flag set to false the report counts no line added
    and no line deleted: the stats are fetched in the commits branch only. *)
Theorem commits_disabled_counts_no_lines :
  forall fmt (api : World) (user org : string) (params : gmap string bool)
         (rep : GitHubContributions),
    count_user_contributions fmt api user org params = Ok rep ->
    params !! "commits" = Some false ->
    total_lines_added rep = 0 /\ total_lines_deleted rep = 0.
Proof.
  intros fmt api user org params rep Hrep Hoff.
  apply params_get_false in Hoff.
  destruct (count_user_contributions_Ok _ _ _ _ _ _ Hrep) as (names & _ & Hmk).
  apply make_report_Ok in Hmk as (_ & _ & _ & _ & _ & Ha & Hd).
  rewrite fold_results_sums in Ha, Hd. simpl in Ha, Hd.
  split; apply int_inj; [rewrite <- Ha | rewrite <- Hd];
    apply sum_lines_process_repo_zero; intros fn r Hr;
    eapply process_repo_commits_off; eassumption.
Qed.

Lemma commits_disabled_counts_no_lines_witness :
  total_lines_added (mkGitHubContributions "alice" "acme" 0 1 2 0 0) = 0 /\
  total_lines_deleted (mkGitHubContributions "alice" "acme" 0 1 2 0 0) = 0.
Proof.
  apply (commits_disabled_counts_no_lines
           no_fmt alice_world "alice" "acme" without_commits
           (mkGitHubContributions "alice" "acme" 0 1 2 0 0)
           ltac:(vm_compute; reflexivity) ltac:(vm_compute; reflexivity)).
Defined.

(** ** The issues count *)

Lemma mem_string_In (key : string) (keys : list string) :
  mem_string key keys = true <-> In key keys.
Proof.
  induction keys as [| k keys IH]; simpl.
  - split; [discriminate | tauto].
  - rewrite orb_true_iff, IH, String.eqb_eq. tauto.
Qed.

Lemma py_in_dict (item : JSON) :
  is_dict item = true ->
  py_in "pull_request" item = Ok (carries_marker item).
Proof.
  destruct item; try discriminate. intros _. simpl. f_equal.
  destruct (in_dec string_dec "pull_request" (map fst fields)) as [Hin | Hout].
  - apply mem_string_In, Hin.
  - apply not_true_is_false. intros H. apply Hout, mem_string_In, H.
Qed.

Lemma fold_left_add_shift (xs : list Z) (a : Z) :
  fold_left Z.add xs a = a + fold_left Z.add xs 0.
Proof.
  revert a. induction xs as [| x xs IH]; intros a; cbn [fold_left]; [lia |].
  rewrite (IH (a + x)), (IH (0 + x)). lia.
Qed.

Lemma sum_Z_cons (x : Z) (xs : list Z) : sum_Z (x :: xs) = x + sum_Z xs.
Proof. unfold sum_Z. simpl. apply fold_left_add_shift. Qed.

Lemma issue_counts_sum (items : list JSON) :
  Forall (fun item => is_dict item = true) items ->
  exists ones,
    for_each issue_counts items = Ok ones /\
    sum_Z ones = Z.of_nat (List.length (unmarked items)).
Proof.
  induction 1 as [| item items Hd _ (ones & Hones & Hsum)]; simpl.
  - exists []. split; reflexivity.
  - unfold issue_counts at 1. rewrite (py_in_dict _ Hd). simpl.
    rewrite Hones. simpl. eexists. split; [reflexivity |].
    rewrite sum_Z_cons, Hsum.
    unfold unmarked. simpl List.filter. fold (unmarked items).
    destruct (carries_marker item); simpl negb; cbv iota;
      [| simpl List.length]; lia.
Qed.

(** C5: when the issues endpoint answers a list of items, the issues count
    is the number of those without the pull-request marker: the issues
    branch returns it, and so does every [process_repo] that returns. *)
Theorem issues_count_skips_pull_requests :
  forall fmt (api : World) (full_name user : string)
         (params : gmap string bool) (items : list JSON),
    params_get params "issues" = true ->
    fetch_json_with_client api (issues_url full_name user) = Ok (JArr items) ->
    Forall (fun item => is_dict item = true) items ->
    (forall res,
        process_issues api full_name user res
        = Ok (mkRepoResult (commits res)
                           (Z.of_nat (List.length (unmarked items)))
                           (pulls res) (additions res) (deletions res))) /\
    (forall r,
        process_repo fmt api full_name user params = Ok r ->
        issues r = Z.of_nat (List.length (unmarked items))).
Proof.
  intros fmt api full_name user params items Hon Hfetch Hdicts.
  destruct (issue_counts_sum items Hdicts) as (ones & Hones & Hsum).
  assert (Hbranch : forall res,
             process_issues api full_name user res
             = Ok (mkRepoResult (commits res)
                                (Z.of_nat (List.length (unmarked items)))
                                (pulls res) (additions res) (deletions res))).
  { intros res. unfold process_issues. rewrite Hfetch. simpl.
    rewrite Hones. simpl. rewrite Hsum. reflexivity. }
  split; [exact Hbranch |].
  intros r Hr. apply process_repo_Ok in Hr as (r1 & r2 & _ & H2 & H3).
  rewrite Hon, Hbranch in H2. injection H2 as <-.
  destruct (params_get params "pulls").
  - apply process_pulls_fields in H3 as (_ & -> & _). reflexivity.
  - injection H3 as <-. reflexivity.
Qed.

Lemma issues_count_skips_pull_requests_witness :
  process_repo no_fmt two_issues_world "acme/r1" "alice" only_issues
  = Ok (mkRepoResult 0 1 0 0 0) /\
  issues (mkRepoResult 0 1 0 0 0) = 1.
Proof.
  split; [vm_compute; reflexivity |].
  apply (proj2 (issues_count_skips_pull_requests
                  no_fmt two_issues_world "acme/r1" "alice" only_issues
                  [JObj [("number", JInt 7)];
                   JObj [("number", JInt 8);
                         ("pull_request", JObj [("url", JStr "u")])]]
                  ltac:(vm_compute; reflexivity) eq_refl
                  ltac:(repeat constructor))
           (mkRepoResult 0 1 0 0 0) ltac:(vm_compute; reflexivity)).
Defined.

(** ** A commit whose stats cannot be fetched *)

Lemma append_cancel (p a b : string) : p ++ a = p ++ b -> a = b.
Proof.
  induction p as [| c p IH]; simpl; [auto |]. intros [= H]. auto.
Qed.

Ltac url_ne :=
  let H := fresh in
  intros H; repeat (apply append_cancel in H); simpl in H; discriminate H.

Lemma detail_ne_commits (full_name sha user : string) :
  commit_detail_url full_name sha <> commits_url full_name user.
Proof. unfold commit_detail_url, commits_url. url_ne. Qed.

Lemma detail_ne_issues (full_name sha user : string) :
  commit_detail_url full_name sha <> issues_url full_name user.
Proof. unfold commit_detail_url, issues_url. url_ne. Qed.

Lemma detail_ne_pulls (full_name sha user : string) :
  commit_detail_url full_name sha <> pulls_url full_name user.
Proof. unfold commit_detail_url, pulls_url. url_ne. Qed.

Lemma world_with_other (api : World) (d u : string) (reply : Reply) :
  d <> u -> world_with api d reply u = api u.
Proof.
  intros Hne. unfold world_with.
  destruct (String.eqb_spec u d) as [-> | _]; [contradiction | reflexivity].
Qed.

Lemma world_with_same (api : World) (d : string) (reply : Reply) :
  world_with api d reply d = reply.
Proof. unfold world_with. rewrite String.eqb_refl. reflexivity. Qed.









(** * Further properties of the service *)

(** ** The feature selection is read at three keys only *)

Lemma process_repo_three_keys fmt (api : World) (full_name user : string)
    (p q : gmap string bool) :
  params_get p "commits" = params_get q "commits" ->
  params_get p "issues" = params_get q "issues" ->
  params_get p "pulls" = params_get q "pulls" ->
  process_repo fmt api full_name user p = process_repo fmt api full_name user q.
Proof.
  intros Hc Hi Hp. unfold process_repo. rewrite Hc, Hi, Hp. reflexivity.
Qed.

Lemma count_three_keys fmt (api : World) (user org : string)
    (p q : gmap string bool) :
  params_get p "commits" = params_get q "commits" ->
  params_get p "issues" = params_get q "issues" ->
  params_get p "pulls" = params_get q "pulls" ->
  count_user_contributions fmt api user org p
  = count_user_contributions fmt api user org q.
Proof.
  intros Hc Hi Hp. unfold count_user_contributions, gather_repos.
  destruct (get_org_repos api org) as [repos |]; [simpl | reflexivity].
  destruct (py_iter repos) as [items |]; [simpl | reflexivity].
  destruct (for_each (repo_task fmt org) items) as [tasks |];
    [simpl | reflexivity].
  do 2 f_equal. apply List.map_ext. intros fn.
  apply process_repo_three_keys; assumption.
Qed.

(** X1: two feature selections that read alike at [commits], [issues] and
    [pulls] give the same aggregation; any other key, and the difference
    between a key that is absent and one that is true, goes unnoticed. *)
Theorem selection_read_at_three_keys :
  forall fmt (api : World) (user org : string) (p q : gmap string bool),
    params_get p "commits" = params_get q "commits" ->
    params_get p "issues" = params_get q "issues" ->
    params_get p "pulls" = params_get q "pulls" ->
    (forall full_name,
        process_repo fmt api full_name user p
        = process_repo fmt api full_name user q) /\
    count_user_contributions fmt api user org p
    = count_user_contributions fmt api user org q.
Proof.
  intros fmt api user org p q Hc Hi Hp. split.
  - intros fn. apply process_repo_three_keys; assumption.
  - apply count_three_keys; assumption.
Qed.

Lemma selection_read_at_three_keys_witness :
  count_user_contributions no_fmt alice_world "alice" "acme" noisy_params
  = count_user_contributions no_fmt alice_world "alice" "acme" all_params.
Proof.
  apply (proj2 (selection_read_at_three_keys
                  no_fmt alice_world "alice" "acme" noisy_params all_params
                  ltac:(vm_compute; reflexivity)
                  ltac:(vm_compute; reflexivity)
                  ltac:(vm_compute; reflexivity))).
Defined.

(** X2: [getGitHubDataWithSearchParams] with a selection that reads true at
    the three keys, the empty one among them, is [getAllGitHubData]; both
    report on the organisation Dijkstra-Edu and on the user asked for. *)
Theorem search_params_default_is_all :
  forall fmt (api : World) (user : string) (searchParams : gmap string bool),
    params_get searchParams "commits" = true ->
    params_get searchParams "issues" = true ->
    params_get searchParams "pulls" = true ->
    getGitHubDataWithSearchParams fmt api user searchParams
    = getAllGitHubData fmt api user /\
    forall rep,
      getAllGitHubData fmt api user = Ok rep ->
      username rep = user /\ organization rep = "Dijkstra-Edu".
Proof.
  intros fmt api user sp Hc Hi Hp. split.
  - unfold getGitHubDataWithSearchParams, getAllGitHubData.
    apply count_three_keys; [rewrite Hc | rewrite Hi | rewrite Hp];
      symmetry; unfold params_get; simplify_map_eq; reflexivity.
  - intros rep Hrep. unfold getAllGitHubData in Hrep.
    apply count_user_contributions_Ok in Hrep as (names & _ & Hmk).
    apply make_report_Ok in Hmk as (Hu & Ho & _). auto.
Qed.

Lemma search_params_default_is_all_witness :
  getGitHubDataWithSearchParams no_fmt alice_world "alice" no_params
  = getAllGitHubData no_fmt alice_world "alice".
Proof.
  apply (proj1 (search_params_default_is_all
                  no_fmt alice_world "alice" no_params
                  ltac:(vm_compute; reflexivity)
                  ltac:(vm_compute; reflexivity)
                  ltac:(vm_compute; reflexivity))).
Defined.

(** ** When the organisation aggregator returns *)

Lemma fetch_json_Ok_iff (api : World) (url : string) (v : JSON) :
  fetch_json api url = Ok v <->
  exists r, api url = Answered r /\ status_code r = 200 /\ json r = Some v.
Proof.
  split.
  - destruct (api url) as [| r] eqn:Hr.
    + unfold fetch_json, client_get. rewrite Hr. discriminate.
    + rewrite (fetch_json_answered _ _ _ Hr).
      destruct (Z.eqb_spec (status_code r) 200) as [E | NE]; [| discriminate].
      unfold response_json. destruct (json r) as [b |] eqn:Hj; [| discriminate].
      intros [= <-]. exists r. auto.
  - intros (r & Hr & E & Hj). rewrite (fetch_json_answered _ _ _ Hr), E. simpl.
    unfold response_json. rewrite Hj. reflexivity.
Qed.

Lemma repo_task_Ok_iff fmt (org : string) (item : JSON) :
  (exists fn, repo_task fmt org item = Ok fn) <-> has_name item = true.
Proof.
  unfold repo_task, has_name, py_getitem.
  destruct item; simpl; try (split; [intros [fn H] |]; discriminate).
  destruct (dict_lookup "name" fields); simpl.
  - split; [reflexivity | eauto].
  - split; [intros [fn H] |]; discriminate.
Qed.

Lemma repo_task_raises fmt (org : string) (item : JSON) :
  has_name item = false ->
  repo_task fmt org item = Raise (if is_dict item then KeyError else TypeError).
Proof.
  unfold repo_task, has_name, py_getitem.
  destruct item; simpl; try reflexivity.
  destruct (dict_lookup "name" fields); [discriminate | reflexivity].
Qed.

Lemma for_each_repo_task_Ok_iff fmt (org : string) (items : list JSON) :
  (exists names, for_each (repo_task fmt org) items = Ok names) <->
  Forall (fun item => has_name item = true) items.
Proof.
  induction items as [| item items IH]; simpl.
  - split; [constructor | eauto].
  - split.
    + intros [names H].
      destruct (repo_task fmt org item) as [fn |] eqn:Hfn; [simpl in H |
        discriminate].
      destruct (for_each (repo_task fmt org) items) as [ns |];
        [| discriminate].
      constructor.
      * apply (repo_task_Ok_iff fmt org). eauto.
      * apply IH. eauto.
    + intros HF. inversion HF as [| ? ? Hitem Hrest]; subst.
      apply (repo_task_Ok_iff fmt org) in Hitem as [fn ->].
      apply IH in Hrest as [ns ->]. simpl. eauto.
Qed.



Lemma for_each_raises_at {A B : Type} (body : A -> outcome B)
    (pre post : list A) (bad : A) (ys : list B) (e : exn) :
  for_each body pre = Ok ys ->
  body bad = Raise e ->
  for_each body (pre ++ bad :: post)%list = Raise e.
Proof.
  revert ys. induction pre as [| x pre IH]; intros ys Hpre Hbad; simpl in *.
  - rewrite Hbad. reflexivity.
  - destruct (body x) as [y |]; [simpl in * | discriminate].
    destruct (for_each body pre) as [zs |]; [| discriminate].
    rewrite (IH zs eq_refl Hbad). reflexivity.
Qed.

(** X4: what goes wrong with the repository list is fatal to the call. No
    connection raises the transport error; a 200 body that does not parse
    raises the decode error; a body that cannot be iterated raises
    TypeError; the first listed item without a readable [name] raises
    KeyError when it is a dict and TypeError otherwise, whatever the other
    repositories hold. *)
Theorem unreadable_listing_is_fatal :
  forall fmt (api : World) (user org : string) (params : gmap string bool),
    (api (org_repos_url org) = ConnectFailed ->
     count_user_contributions fmt api user org params = Raise TransportError) /\
    (forall r,
        api (org_repos_url org) = Answered r ->
        status_code r = 200 -> json r = None ->
        count_user_contributions fmt api user org params
        = Raise JSONDecodeError) /\
    (forall r body e,
        api (org_repos_url org) = Answered r ->
        status_code r = 200 -> json r = Some body ->
        py_iter body = Raise e ->
        count_user_contributions fmt api user org params = Raise TypeError) /\
    (forall r pre bad post,
        api (org_repos_url org) = Answered r ->
        status_code r = 200 ->
        json r = Some (JArr (pre ++ bad :: post)%list) ->
        Forall (fun item => has_name item = true) pre ->
        has_name bad = false ->
        count_user_contributions fmt api user org params
        = Raise (if is_dict bad then KeyError else TypeError)).
Proof.
  intros fmt api user org params.
  unfold count_user_contributions, gather_repos, get_org_repos.
  repeat split.
  - intros Hr. unfold fetch_json, client_get. rewrite Hr. reflexivity.
  - intros r Hr E Hj. rewrite (fetch_json_answered _ _ _ Hr), E. simpl.
    unfold response_json. rewrite Hj. reflexivity.
  - intros r body e Hr E Hj Hi. rewrite (fetch_json_answered _ _ _ Hr), E.
    simpl. unfold response_json. rewrite Hj. simpl.
    destruct body; simpl in *; try discriminate; reflexivity.
  - intros r pre bad post Hr E Hj Hpre Hbad.
    rewrite (fetch_json_answered _ _ _ Hr), E. simpl.
    unfold response_json. rewrite Hj. simpl.
    apply (for_each_repo_task_Ok_iff fmt org) in Hpre as [names Hnames].
    rewrite (for_each_raises_at _ _ post _ _ _ Hnames
               (repo_task_raises fmt org bad Hbad)).
    reflexivity.
Qed.

Lemma unreadable_listing_is_fatal_witness :
  count_user_contributions no_fmt bad_issue_world "alice" "acme" all_params
  = Raise KeyError.
Proof.
  apply (proj2 (proj2 (proj2 (unreadable_listing_is_fatal
                                no_fmt bad_issue_world "alice" "acme"
                                all_params)))
           (mkResponse 200 "" (Some (JArr [repo "r1"; JObj []])))
           [repo "r1"] (JObj []) []);
    try reflexivity.
  repeat constructor.
Defined.

(** ** The three branches of the per-repository aggregator *)

Lemma process_issues_from_zero (api : World) (full_name user : string)
    (res : RepoResult) :
  process_issues api full_name user res
  = match process_issues api full_name user (mkRepoResult 0 0 0 0 0) with
    | Ok z => Ok (mkRepoResult (commits res) (issues z) (pulls res)
                               (additions res) (deletions res))
    | Raise e => Raise e
    end.
Proof.
  unfold process_issues.
  destruct (fetch_json_with_client api (issues_url full_name user)) as [b |];
    [simpl | reflexivity].
  destruct (py_iter b) as [items |]; [simpl | reflexivity].
  destruct (for_each issue_counts items); reflexivity.
Qed.

Lemma process_pulls_from_zero (api : World) (full_name user : string)
    (res : RepoResult) :
  process_pulls api full_name user res
  = match process_pulls api full_name user (mkRepoResult 0 0 0 0 0) with
    | Ok z => Ok (mkRepoResult (commits res) (issues res) (pulls z)
                               (additions res) (deletions res))
    | Raise e => Raise e
    end.
Proof.
  unfold process_pulls.
  destruct (fetch_json_with_client api (pulls_url full_name user)) as [b |];
    [simpl | reflexivity].
  destruct (py_len b); reflexivity.
Qed.

Lemma process_commits_zero_form fmt (api : World) (full_name user : string)
    (z : RepoResult) :
  process_commits fmt api full_name user (mkRepoResult 0 0 0 0 0) = Ok z ->
  z = mkRepoResult (commits z) 0 0 (additions z) (deletions z).
Proof.
  intros H. apply process_commits_fields in H as (Hi & Hp & _).
  destruct z. simpl in *. subst. reflexivity.
Qed.

Lemma process_issues_zero_form (api : World) (full_name user : string)
    (z : RepoResult) :
  process_issues api full_name user (mkRepoResult 0 0 0 0 0) = Ok z ->
  z = mkRepoResult 0 (issues z) 0 0 0.
Proof.
  intros H. apply process_issues_fields in H as (Hc & Hp & Ha & Hd).
  destruct z. simpl in *. subst. reflexivity.
Qed.

Lemma process_pulls_zero_form (api : World) (full_name user : string)
    (z : RepoResult) :
  process_pulls api full_name user (mkRepoResult 0 0 0 0 0) = Ok z ->
  z = mkRepoResult 0 0 (pulls z) 0 0.
Proof.
  intros H. apply process_pulls_fields in H as (Hc & Hi & Ha & Hd).
  destruct z. simpl in *. subst. reflexivity.
Qed.

Lemma issues_step_Ok (api : World) (full_name user : string) (on : bool)
    (r1 r2 : RepoResult) :
  (if on then process_issues api full_name user r1 else Ok r1) = Ok r2 ->
  r2 = mkRepoResult (commits r1) (issues r2) (pulls r1)
                    (additions r1) (deletions r1) /\
  if on
  then process_issues api full_name user (mkRepoResult 0 0 0 0 0)
       = Ok (mkRepoResult 0 (issues r2) 0 0 0)
  else issues r2 = issues r1.
Proof.
  destruct on.
  - rewrite process_issues_from_zero.
    destruct (process_issues api full_name user (mkRepoResult 0 0 0 0 0))
      as [z |] eqn:Hz; [| discriminate].
    intros [= <-]. simpl. split; [reflexivity |].
    f_equal. apply process_issues_zero_form in Hz. exact Hz.
  - intros [= <-]. split; [destruct r1 |]; reflexivity.
Qed.

Lemma pulls_step_Ok (api : World) (full_name user : string) (on : bool)
    (r2 r : RepoResult) :
  (if on then process_pulls api full_name user r2 else Ok r2) = Ok r ->
  r = mkRepoResult (commits r2) (issues r2) (pulls r)
                   (additions r2) (deletions r2) /\
  if on
  then process_pulls api full_name user (mkRepoResult 0 0 0 0 0)
       = Ok (mkRepoResult 0 0 (pulls r) 0 0)
  else pulls r = pulls r2.
Proof.
  destruct on.
  - rewrite process_pulls_from_zero.
    destruct (process_pulls api full_name user (mkRepoResult 0 0 0 0 0))
      as [z |] eqn:Hz; [| discriminate].
    intros [= <-]. simpl. split; [reflexivity |].
    f_equal. apply process_pulls_zero_form in Hz. exact Hz.
  - intros [= <-]. split; [destruct r2 |]; reflexivity.
Qed.

(** X5: the three branches of [process_repo] do not depend on one another:
    it returns [r] exactly when every enabled branch, run alone on the
    empty result, returns the part of [r] that it writes, and the fields of
    a disabled branch are 0. One enabled branch that raises leaves no
    partial result at all. *)
Theorem process_repo_splits_by_branch :
  forall fmt (api : World) (full_name user : string)
         (params : gmap string bool) (r : RepoResult),
    process_repo fmt api full_name user params = Ok r <->
    (if params_get params "commits"
     then process_commits fmt api full_name user (mkRepoResult 0 0 0 0 0)
          = Ok (mkRepoResult (commits r) 0 0 (additions r) (deletions r))
     else commits r = 0 /\ additions r = 0 /\ deletions r = 0) /\
    (if params_get params "issues"
     then process_issues api full_name user (mkRepoResult 0 0 0 0 0)
          = Ok (mkRepoResult 0 (issues r) 0 0 0)
     else issues r = 0) /\
    (if params_get params "pulls"
     then process_pulls api full_name user (mkRepoResult 0 0 0 0 0)
          = Ok (mkRepoResult 0 0 (pulls r) 0 0)
     else pulls r = 0).
Proof.
  intros fmt api full_name user params r. split.
  - intros H. apply process_repo_Ok in H as (r1 & r2 & H1 & H2 & H3).
    apply issues_step_Ok in H2 as (E2 & I2).
    apply pulls_step_Ok in H3 as (E3 & I3).
    assert (F1 : issues r1 = 0 /\ pulls r1 = 0).
    { destruct (params_get params "commits").
      - apply process_commits_fields in H1 as (-> & -> & _). auto.
      - injection H1 as <-. auto. }
    destruct F1 as (F1i & F1p).
    destruct r as [c i p a d], r1 as [c1 i1 p1 a1 d1], r2 as [c2 i2 p2 a2 d2].
    simpl in *. inversion E2; subst. inversion E3; subst. clear E2 E3.
    repeat split.
    + destruct (params_get params "commits"); [exact H1 |].
      injection H1 as <- <- <-. auto.
    + destruct (params_get params "issues"); [exact I2 | exact I2].
    + destruct (params_get params "pulls"); [exact I3 | exact I3].
  - intros (Hc & Hi & Hp). destruct r as [c i p a d]. simpl in *.
    unfold process_repo.
    destruct (params_get params "commits");
      [rewrite Hc | destruct Hc as (-> & -> & ->)];
      cbn [rbind];
      (destruct (params_get params "issues");
       [rewrite process_issues_from_zero, Hi | subst i]);
      cbn [rbind issues commits pulls additions deletions];
      (destruct (params_get params "pulls");
       [rewrite process_pulls_from_zero, Hp | subst p]);
      reflexivity.
Qed.

Lemma process_repo_splits_by_branch_witness :
  process_repo no_fmt alice_world "acme/r1" "alice" all_params
  = Ok (mkRepoResult 3 1 2 10 2).
Proof.
  apply (proj2 (process_repo_splits_by_branch
                  no_fmt alice_world "acme/r1" "alice" all_params
                  (mkRepoResult 3 1 2 10 2))).
  vm_compute. repeat split.
Defined.

Lemma process_issues_inv (api : World) (full_name user : string)
    (res res' : RepoResult) :
  process_issues api full_name user res = Ok res' ->
  exists body items ones,
    fetch_json_with_client api (issues_url full_name user) = Ok body /\
    py_iter body = Ok items /\
    for_each issue_counts items = Ok ones /\
    issues res' = sum_Z ones.
Proof.
  unfold process_issues. intros H. repeat bind_ok H. injection H as <-.
  simpl. eauto 10.
Qed.

Lemma process_pulls_inv (api : World) (full_name user : string)
    (res res' : RepoResult) :
  process_pulls api full_name user res = Ok res' ->
  exists body,
    fetch_json_with_client api (pulls_url full_name user) = Ok body /\
    py_len body = Ok (pulls res').
Proof.
  unfold process_pulls. intros H. repeat bind_ok H. injection H as <-.
  simpl. eauto.
Qed.

(** C9: a key that the mapping lacks reads as true: [process_repo], and so
    the whole aggregation, run exactly as with the key present and true,
    and the branch of that key is fetched and counted: a list fetch that
    raises fails the repository, and a partial result holds the length of
    the fetched commit list and the lines of its commits, the count of the
    fetched issues, or the length of the fetched pull list. *)
Theorem absent_key_is_enabled :
  forall fmt (api : World) (full_name user org key : string)
         (params : gmap string bool),
    params !! key = None ->
    params_get params key = true /\
    process_repo fmt api full_name user params
    = process_repo fmt api full_name user (<[key := true]> params) /\
    count_user_contributions fmt api user org params
    = count_user_contributions fmt api user org (<[key := true]> params) /\
    (key = "commits" ->
     (forall e,
         fetch_json_with_client api (commits_url full_name user) = Raise e ->
         process_repo fmt api full_name user params = Raise e) /\
     (forall r,
         process_repo fmt api full_name user params = Ok r ->
         exists listed,
           fetch_json_with_client api (commits_url full_name user) = Ok listed /\
           py_len listed = Ok (commits r) /\
           process_commits fmt api full_name user (mkRepoResult 0 0 0 0 0)
           = Ok (mkRepoResult (commits r) 0 0 (additions r) (deletions r)))) /\
    (key = "issues" ->
     (forall e,
         fetch_json_with_client api (issues_url full_name user) = Raise e ->
         exists e', process_repo fmt api full_name user params = Raise e') /\
     (forall r,
         process_repo fmt api full_name user params = Ok r ->
         exists body items ones,
           fetch_json_with_client api (issues_url full_name user) = Ok body /\
           py_iter body = Ok items /\
           for_each issue_counts items = Ok ones /\
           issues r = sum_Z ones)) /\
    (key = "pulls" ->
     (forall e,
         fetch_json_with_client api (pulls_url full_name user) = Raise e ->
         exists e', process_repo fmt api full_name user params = Raise e') /\
     (forall r,
         process_repo fmt api full_name user params = Ok r ->
         exists body,
           fetch_json_with_client api (pulls_url full_name user) = Ok body /\
           py_len body = Ok (pulls r))).
Proof.
  intros fmt api full_name user org key params Habs.
  assert (Hext : forall fn,
             process_repo fmt api fn user params
             = process_repo fmt api fn user (<[key := true]> params)).
  { intros fn. apply process_repo_params_ext. intros k. symmetry.
    apply params_get_insert_absent, Habs. }
  assert (Hon : params_get params key = true)
    by (unfold params_get; rewrite Habs; reflexivity).
  split; [exact Hon |]. split; [apply Hext |]. split.
  { unfold count_user_contributions, gather_repos.
    destruct (get_org_repos api org) as [repos |]; [| reflexivity]. simpl.
    destruct (py_iter repos) as [items |]; [| reflexivity]. simpl.
    destruct (for_each (repo_task fmt org) items) as [tasks |]; [| reflexivity].
    simpl. do 2 f_equal. apply List.map_ext. intros fn. apply Hext. }
  split; [| split]; intros ->; split.
  - intros e He. unfold process_repo. rewrite Hon. unfold process_commits.
    rewrite He. reflexivity.
  - intros r Hr. apply process_repo_Ok in Hr as (r1 & r2 & H1 & H2 & H3).
    rewrite Hon in H1.
    apply issues_step_Ok in H2 as (E2 & _).
    apply pulls_step_Ok in H3 as (E3 & _).
    pose proof (process_commits_zero_form _ _ _ _ _ H1) as Hz.
    pose proof H1 as Hf.
    apply process_commits_fields in Hf as (_ & _ & v & Hv & Hlen).
    rewrite E3. simpl. rewrite E2. simpl.
    exists v. split; [exact Hv |]. split; [exact Hlen |].
    rewrite H1. f_equal. exact Hz.
  - intros e He. unfold process_repo.
    destruct (if params_get params "commits"
              then process_commits fmt api full_name user
                     (mkRepoResult 0 0 0 0 0)
              else Ok (mkRepoResult 0 0 0 0 0)) as [r1 | e1];
      [cbn [rbind] | eauto].
    rewrite Hon. unfold process_issues. rewrite He. simpl. eauto.
  - intros r Hr. apply process_repo_Ok in Hr as (r1 & r2 & _ & H2 & H3).
    rewrite Hon in H2.
    apply process_issues_inv in H2 as (body & items & ones & ? & ? & ? & Hn).
    apply pulls_step_Ok in H3 as (E3 & _).
    rewrite E3. simpl. rewrite Hn. eauto 10.
  - intros e He. unfold process_repo.
    destruct (if params_get params "commits"
              then process_commits fmt api full_name user
                     (mkRepoResult 0 0 0 0 0)
              else Ok (mkRepoResult 0 0 0 0 0)) as [r1 | e1];
      [cbn [rbind] | eauto].
    destruct (if params_get params "issues"
              then process_issues api full_name user r1
              else Ok r1) as [r2 | e2];
      [cbn [rbind] | eauto].
    rewrite Hon. unfold process_pulls. rewrite He. simpl. eauto.
  - intros r Hr. apply process_repo_Ok in Hr as (r1 & r2 & _ & _ & H3).
    rewrite Hon in H3. apply process_pulls_inv in H3. exact H3.
Qed.

Lemma absent_key_is_enabled_witness :
  exists listed,
    fetch_json_with_client alice_world (commits_url "acme/r1" "alice")
    = Ok listed /\
    py_len listed = Ok (commits (mkRepoResult 3 1 0 10 2)) /\
    process_commits no_fmt alice_world "acme/r1" "alice"
      (mkRepoResult 0 0 0 0 0)
    = Ok (mkRepoResult (commits (mkRepoResult 3 1 0 10 2)) 0 0
            (additions (mkRepoResult 3 1 0 10 2))
            (deletions (mkRepoResult 3 1 0 10 2))).
Proof.
  apply (proj2 (proj1 (proj2 (proj2 (proj2
           (absent_key_is_enabled
              no_fmt alice_world "acme/r1" "alice" "acme" "commits"
              without_pulls ltac:(vm_compute; reflexivity)))))
           eq_refl)
           (mkRepoResult 3 1 0 10 2) ltac:(vm_compute; reflexivity)).
Defined.

Lemma fetch_with_client_Ok (api : World) (url : string) (v : JSON) :
  fetch_json_with_client api url = Ok v ->
  exists resp,
    api url = Answered resp /\ status_code resp = 200 /\ json resp = Some v.
Proof. intros H. apply fetch_json_Ok_iff. exact H. Qed.

Lemma process_issues_fetched (api : World) (full_name user : string)
    (res res' : RepoResult) :
  process_issues api full_name user res = Ok res' ->
  exists v, fetch_json_with_client api (issues_url full_name user) = Ok v.
Proof. unfold process_issues. intros H. bind_ok H. eauto. Qed.

Lemma process_pulls_fetched (api : World) (full_name user : string)
    (res res' : RepoResult) :
  process_pulls api full_name user res = Ok res' ->
  exists v, fetch_json_with_client api (pulls_url full_name user) = Ok v.
Proof. unfold process_pulls. intros H. bind_ok H. eauto. Qed.

(** X6: a repository is all or nothing: [process_repo] returns a partial
    result only if each list endpoint of an enabled category was answered
    with status 200 and a body that parses. A commit list that cannot be
    fetched also discards the issues and pulls of that repository, and the
    other way round. *)
Theorem partial_result_needs_every_list :
  forall fmt (api : World) (full_name user : string)
         (params : gmap string bool) (r : RepoResult),
    process_repo fmt api full_name user params = Ok r ->
    (params_get params "commits" = true ->
     exists resp body,
       api (commits_url full_name user) = Answered resp /\
       status_code resp = 200 /\ json resp = Some body) /\
    (params_get params "issues" = true ->
     exists resp body,
       api (issues_url full_name user) = Answered resp /\
       status_code resp = 200 /\ json resp = Some body) /\
    (params_get params "pulls" = true ->
     exists resp body,
       api (pulls_url full_name user) = Answered resp /\
       status_code resp = 200 /\ json resp = Some body).
Proof.
  intros fmt api full_name user params r H.
  apply process_repo_Ok in H as (r1 & r2 & H1 & H2 & H3).
  repeat split; intros Hon.
  - rewrite Hon in H1.
    apply process_commits_fields in H1 as (_ & _ & v & Hv & _).
    apply fetch_with_client_Ok in Hv as (resp & ?). eauto.
  - rewrite Hon in H2. apply process_issues_fetched in H2 as (v & Hv).
    apply fetch_with_client_Ok in Hv as (resp & ?). eauto.
  - rewrite Hon in H3. apply process_pulls_fetched in H3 as (v & Hv).
    apply fetch_with_client_Ok in Hv as (resp & ?). eauto.
Qed.

Lemma partial_result_needs_every_list_witness :
  exists resp body,
    alice_world (pulls_url "acme/r1" "alice") = Answered resp /\
    status_code resp = 200 /\ json resp = Some body.
Proof.
  apply (proj2 (proj2 (partial_result_needs_every_list
                         no_fmt alice_world "acme/r1" "alice" all_params
                         (mkRepoResult 3 1 2 10 2)
                         ltac:(vm_compute; reflexivity)))).
  vm_compute. reflexivity.
Defined.

(** ** The lines of the listed commits *)











(** ** Counts *)

Lemma py_len_nonneg (v : JSON) (n : Z) : py_len v = Ok n -> 0 <= n.
Proof. destruct v; simpl; try discriminate; intros [= <-]; lia. Qed.

Lemma length_list_ascii (s : string) :
  List.length (list_ascii_of_string s) = String.length s.
Proof. induction s as [| c s IH]; simpl; [reflexivity | rewrite IH; reflexivity]. Qed.

Lemma py_iter_len (v : JSON) (items : list JSON) :
  py_iter v = Ok items -> py_len v = Ok (Z.of_nat (List.length items)).
Proof.
  destruct v; simpl; try discriminate; intros [= <-]; unfold chars;
    rewrite ?List.length_map, ?length_list_ascii; reflexivity.
Qed.

Lemma issue_counts_range (items : list JSON) (ones : list Z) :
  for_each issue_counts items = Ok ones ->
  0 <= sum_Z ones <= Z.of_nat (List.length items).
Proof.
  revert ones. induction items as [| item items IH]; intros ones H; simpl in H.
  - injection H as <-. unfold sum_Z. simpl. lia.
  - bind_ok H. bind_ok H. injection H as <-.
    unfold issue_counts in E. bind_ok E. injection E as <-.
    rewrite sum_Z_cons. specialize (IH _ eq_refl).
    simpl List.length. destruct (negb a1); lia.
Qed.

Lemma process_issues_count (api : World) (full_name user : string)
    (res res' : RepoResult) :
  process_issues api full_name user res = Ok res' ->
  exists body items,
    fetch_json_with_client api (issues_url full_name user) = Ok body /\
    py_iter body = Ok items /\
    0 <= issues res' <= Z.of_nat (List.length items).
Proof.
  unfold process_issues. intros H. repeat bind_ok H. injection H as <-.
  simpl. do 2 eexists.
  split; [reflexivity | split; [eassumption |]].
  eapply issue_counts_range; eassumption.
Qed.

Lemma process_pulls_count (api : World) (full_name user : string)
    (res res' : RepoResult) :
  process_pulls api full_name user res = Ok res' -> 0 <= pulls res'.
Proof.
  unfold process_pulls. intros H. repeat bind_ok H. injection H as <-.
  simpl. eapply py_len_nonneg; eassumption.
Qed.

Lemma process_repo_counts fmt (api : World) (full_name user : string)
    (params : gmap string bool) (r : RepoResult) :
  process_repo fmt api full_name user params = Ok r ->
  0 <= commits r /\ 0 <= issues r /\ 0 <= pulls r.
Proof.
  intros H. apply process_repo_Ok in H as (r1 & r2 & H1 & H2 & H3).
  assert (C1 : 0 <= commits r1 /\ issues r1 = 0 /\ pulls r1 = 0).
  { destruct (params_get params "commits").
    - apply process_commits_fields in H1 as (-> & -> & v & _ & Hlen).
      apply py_len_nonneg in Hlen. auto.
    - injection H1 as <-. simpl. repeat split; lia. }
  destruct C1 as (C1 & I1 & P1).
  apply issues_step_Ok in H2 as (E2 & I2).
  apply pulls_step_Ok in H3 as (E3 & I3).
  rewrite E3. simpl. rewrite E2. simpl. repeat split.
  - exact C1.
  - destruct (params_get params "issues"); [| lia].
    apply process_issues_count in I2 as (b & its & _ & _ & Hr).
    simpl in Hr. lia.
  - destruct (params_get params "pulls"); [| rewrite E2 in I3; simpl in I3; lia].
    apply process_pulls_count in I3. exact I3.
Qed.

Lemma sum_of_nonneg (field : RepoResult -> Z) (rs : list RepoResult) :
  Forall (fun r => 0 <= field r) rs -> 0 <= sum_of field rs.
Proof. induction 1 as [| r rs Hr _ IH]; simpl; lia. Qed.

(** X9: the commits, issues and pulls counts of a partial result and of a
    report are never negative, and the issues count is at most the number
    of items that the issues endpoint returned. *)
Theorem counts_are_bounded :
  forall fmt (api : World) (user org : string) (params : gmap string bool),
    (forall full_name r,
        process_repo fmt api full_name user params = Ok r ->
        0 <= commits r /\ 0 <= issues r /\ 0 <= pulls r /\
        (params_get params "issues" = true ->
         exists body n,
           fetch_json_with_client api (issues_url full_name user) = Ok body /\
           py_len body = Ok n /\ issues r <= n)) /\
    (forall rep,
        count_user_contributions fmt api user org params = Ok rep ->
        0 <= total_commits rep /\ 0 <= total_issues rep /\
        0 <= total_pull_requests rep).
Proof.
  intros fmt api user org params. split.
  - intros fn r Hr.
    destruct (process_repo_counts _ _ _ _ _ _ Hr) as (Hc & Hi & Hp).
    repeat split; try assumption.
    intros Hon. apply process_repo_Ok in Hr as (r1 & r2 & _ & H2 & H3).
    rewrite Hon in H2.
    apply process_issues_count in H2 as (body & items & Hb & Hit & Hrange).
    apply pulls_step_Ok in H3 as (-> & _). simpl.
    exists body, (Z.of_nat (List.length items)).
    repeat split; [exact Hb | apply py_iter_len, Hit | lia].
  - intros rep Hrep.
    destruct (count_user_contributions_Ok _ _ _ _ _ _ Hrep)
      as (names & _ & Hmk).
    apply make_report_Ok in Hmk as (_ & _ & Hc & Hi & Hp & _).
    rewrite fold_results_sums in Hc, Hi, Hp. simpl in Hc, Hi, Hp.
    rewrite Hc, Hi, Hp.
    repeat split; apply sum_of_nonneg, List.Forall_forall; intros r Hin;
      apply In_successes, List.in_map_iff in Hin as (fn & Hfn & _);
      apply process_repo_counts in Hfn; tauto.
Qed.

Lemma counts_are_bounded_witness :
  exists body n,
    fetch_json_with_client alice_world (issues_url "acme/r1" "alice") = Ok body /\
    py_len body = Ok n /\ issues (mkRepoResult 3 1 2 10 2) <= n.
Proof.
  apply (proj1 (counts_are_bounded no_fmt alice_world "alice" "acme" all_params)
           "acme/r1" (mkRepoResult 3 1 2 10 2));
    vm_compute; reflexivity.
Defined.

(** ** What the per-repository aggregator reads *)

Lemma fetch_with_client_ext (api api' : World) (url : string) :
  api url = api' url ->
  fetch_json_with_client api url = fetch_json_with_client api' url.
Proof.
  intros H. unfold fetch_json_with_client, client_get. rewrite H. reflexivity.
Qed.

Lemma stats_field_reply_json (reply : Reply) :
  stats_field reply
  = match reply_json reply with
    | Some (JObj fields) => dict_lookup "stats" fields
    | _ => None
    end.
Proof. destruct reply; reflexivity. Qed.

Lemma get_commit_stats_ext (api api' : World) (url : string) :
  reply_json (api url) = reply_json (api' url) ->
  get_commit_stats api url = get_commit_stats api' url.
Proof.
  intros H. rewrite !get_commit_stats_value, !stats_field_reply_json, H.
  reflexivity.
Qed.

Lemma commit_tasks_are_detail_urls fmt (full_name : string)
    (items : list JSON) (tasks : list (list string)) :
  for_each (commit_task fmt full_name) items = Ok tasks ->
  Forall (fun u => exists sha, u = commit_detail_url full_name sha)
         (concat tasks).
Proof.
  revert tasks. induction items as [| c items IH]; intros tasks H; simpl in H.
  - injection H as <-. constructor.
  - bind_ok H. bind_ok H. injection H as <-. simpl.
    apply List.Forall_app. split; [| apply IH; reflexivity].
    unfold commit_task in E. bind_ok E.
    destruct (py_truthy a1); injection E as <-; repeat constructor. eauto.
Qed.

Lemma process_commits_ext fmt (api api' : World) (full_name user : string)
    (res : RepoResult) :
  api (commits_url full_name user) = api' (commits_url full_name user) ->
  (forall sha,
      reply_json (api (commit_detail_url full_name sha))
      = reply_json (api' (commit_detail_url full_name sha))) ->
  process_commits fmt api full_name user res
  = process_commits fmt api' full_name user res.
Proof.
  intros Hlist Hdetail. unfold process_commits.
  rewrite (fetch_with_client_ext api api' _ Hlist).
  destruct (fetch_json_with_client api' (commits_url full_name user))
    as [listed |]; [simpl | reflexivity].
  destruct (py_len listed) as [n |]; [simpl | reflexivity].
  destruct (py_iter listed) as [items |]; [simpl | reflexivity].
  destruct (for_each (commit_task fmt full_name) items) as [tasks |] eqn:Ht;
    [simpl | reflexivity].
  f_equal. apply List.map_ext_in. intros u Hu.
  apply commit_tasks_are_detail_urls in Ht.
  rewrite List.Forall_forall in Ht. destruct (Ht u Hu) as (sha & ->).
  apply get_commit_stats_ext, Hdetail.
Qed.

Lemma process_issues_ext (api api' : World) (full_name user : string)
    (res : RepoResult) :
  api (issues_url full_name user) = api' (issues_url full_name user) ->
  process_issues api full_name user res = process_issues api' full_name user res.
Proof.
  intros H. unfold process_issues.
  rewrite (fetch_with_client_ext api api' _ H). reflexivity.
Qed.

Lemma process_pulls_ext (api api' : World) (full_name user : string)
    (res : RepoResult) :
  api (pulls_url full_name user) = api' (pulls_url full_name user) ->
  process_pulls api full_name user res = process_pulls api' full_name user res.
Proof.
  intros H. unfold process_pulls.
  rewrite (fetch_with_client_ext api api' _ H). reflexivity.
Qed.

Lemma rbind_ext {A B : Type} (m : outcome A) (k k' : A -> outcome B) :
  (forall a, k a = k' a) -> rbind m k = rbind m k'.
Proof. intros H. destruct m; simpl; [apply H | reflexivity]. Qed.

Lemma process_repo_frame fmt (api api' : World) (full_name user : string)
    (params : gmap string bool) :
  (params_get params "commits" = true ->
   api (commits_url full_name user) = api' (commits_url full_name user) /\
   forall sha,
     reply_json (api (commit_detail_url full_name sha))
     = reply_json (api' (commit_detail_url full_name sha))) ->
  (params_get params "issues" = true ->
   api (issues_url full_name user) = api' (issues_url full_name user)) ->
  (params_get params "pulls" = true ->
   api (pulls_url full_name user) = api' (pulls_url full_name user)) ->
  process_repo fmt api full_name user params
  = process_repo fmt api' full_name user params.
Proof.
  intros Hc Hi Hp. unfold process_repo.
  assert (S1 : (if params_get params "commits"
                then process_commits fmt api full_name user
                       (mkRepoResult 0 0 0 0 0)
                else Ok (mkRepoResult 0 0 0 0 0))
               = (if params_get params "commits"
                  then process_commits fmt api' full_name user
                         (mkRepoResult 0 0 0 0 0)
                  else Ok (mkRepoResult 0 0 0 0 0))).
  { destruct (params_get params "commits"); [| reflexivity].
    destruct (Hc eq_refl) as (Hlist & Hdetail).
    apply process_commits_ext; assumption. }
  rewrite S1. apply rbind_ext. intros r1.
  assert (S2 : (if params_get params "issues"
                then process_issues api full_name user r1 else Ok r1)
               = (if params_get params "issues"
                  then process_issues api' full_name user r1 else Ok r1)).
  { destruct (params_get params "issues"); [| reflexivity].
    apply process_issues_ext, Hi. reflexivity. }
  rewrite S2. apply rbind_ext. intros r2.
  assert (S3 : (if params_get params "pulls"
                then process_pulls api full_name user r2 else Ok r2)
               = (if params_get params "pulls"
                  then process_pulls api' full_name user r2 else Ok r2)).
  { destruct (params_get params "pulls"); [| reflexivity].
    apply process_pulls_ext, Hp. reflexivity. }
  rewrite S3. reflexivity.
Qed.

(** X10: [process_repo] reads the API at the list endpoints of the enabled
    categories of its repository and, with commits enabled, at the parsed
    bodies of its commit detail endpoints, and nowhere else: two worlds
    that agree there give the same outcome. A disabled category is not
    fetched. *)
Theorem process_repo_reads_enabled_endpoints :
  forall fmt (api api' : World) (full_name user : string)
         (params : gmap string bool),
    (params_get params "commits" = true ->
     api (commits_url full_name user) = api' (commits_url full_name user) /\
     forall sha,
       reply_json (api (commit_detail_url full_name sha))
       = reply_json (api' (commit_detail_url full_name sha))) ->
    (params_get params "issues" = true ->
     api (issues_url full_name user) = api' (issues_url full_name user)) ->
    (params_get params "pulls" = true ->
     api (pulls_url full_name user) = api' (pulls_url full_name user)) ->
    process_repo fmt api full_name user params
    = process_repo fmt api' full_name user params.
Proof. exact process_repo_frame. Qed.

Lemma process_repo_reads_enabled_endpoints_witness :
  process_repo no_fmt two_issues_world "acme/r1" "alice" only_issues
  = process_repo no_fmt
      (world_with two_issues_world (commits_url "acme/r1" "alice") ConnectFailed)
      "acme/r1" "alice" only_issues.
Proof.
  apply (process_repo_reads_enabled_endpoints
           no_fmt two_issues_world
           (world_with two_issues_world (commits_url "acme/r1" "alice")
              ConnectFailed)
           "acme/r1" "alice" only_issues).
  - intros H. vm_compute in H. discriminate H.
  - intros _. vm_compute. reflexivity.
  - intros H. vm_compute in H. discriminate H.
Defined.

(** X11: the commit detail fetch never looks at the status code or at the
    text of the response: with the same parsed body under another status,
    a 404 or a 500 as well, the repository is aggregated alike. *)
Theorem commit_detail_status_is_ignored :
  forall fmt (api : World) (full_name user sha : string)
         (params : gmap string bool) (resp : Response) (s : Z) (t : string),
    api (commit_detail_url full_name sha) = Answered resp ->
    get_commit_stats
      (world_with api (commit_detail_url full_name sha)
         (Answered (mkResponse s t (json resp))))
      (commit_detail_url full_name sha)
    = get_commit_stats api (commit_detail_url full_name sha) /\
    process_repo fmt
      (world_with api (commit_detail_url full_name sha)
         (Answered (mkResponse s t (json resp))))
      full_name user params
    = process_repo fmt api full_name user params.
Proof.
  intros fmt api full_name user sha params resp s t Hresp.
  assert (Hjson : forall u,
             reply_json
               (world_with api (commit_detail_url full_name sha)
                  (Answered (mkResponse s t (json resp))) u)
             = reply_json (api u)).
  { intros u. destruct (string_dec (commit_detail_url full_name sha) u)
      as [<- | Hne].
    - rewrite world_with_same, Hresp. reflexivity.
    - rewrite world_with_other by exact Hne. reflexivity. }
  split.
  - apply get_commit_stats_ext, Hjson.
  - apply process_repo_frame.
    + intros _. split; [| intros sha'; apply Hjson].
      apply world_with_other, detail_ne_commits.
    + intros _. apply world_with_other, detail_ne_issues.
    + intros _. apply world_with_other, detail_ne_pulls.
Qed.

Lemma commit_detail_status_is_ignored_witness :
  process_repo no_fmt
    (world_with alice_world (commit_detail_url "acme/r1" "c1")
       (Answered (mkResponse 500 "Server Error" (Some (stats_body 4 1)))))
    "acme/r1" "alice" all_params
  = process_repo no_fmt alice_world "acme/r1" "alice" all_params.
Proof.
  apply (proj2 (commit_detail_status_is_ignored
                  no_fmt alice_world "acme/r1" "alice" "c1" all_params
                  (mkResponse 200 "" (Some (stats_body 4 1)))
                  500 "Server Error" eq_refl)).
Defined.

(** ** The report as a function of the repository list *)













